(** * Data Sweeper (src/app.py): a shallow embedding of the per-file
    cleaning-and-conversion pipeline.

    The dataframe library (pandas) and the imputer (scikit-learn's
    SimpleImputer) are modelled only as far as src/app.py uses them:
    - a cell is either missing (NaN, [None] here) or a value;
    - numbers are modelled as rationals (no infinities, no rounding);
    - a column carries the dtype class that [select_dtypes] tests:
      ['number'], ['object'] or something else (bool, datetime, ...). *)

From Stdlib Require Import List String Ascii Bool Arith Lia QArith ZArith.
Import ListNotations.
Open Scope list_scope.
Open Scope nat_scope.

(** ** Values, cells, tables *)

(** A non-missing cell value. A float64 number is either finite, kept as
    an exact rational (the rounding of float arithmetic is not modelled), or
    one of the infinities [inf] ([VInf false]) and [-inf] ([VInf true]),
    which [read_csv] parses from the texts ["inf"] and ["-inf"]. NaN is the
    missing cell below, never a value. *)
Inductive val : Type :=
| VNum (q : Q)
| VInf (neg : bool)
| VStr (s : string).

(** [None] is a missing cell (NaN). *)
Definition cell := option val.

Inductive dtype : Type := DNumber | DObject | DOther.

Definition row := list cell.

(** A DataFrame: its column labels with their dtype classes, and its rows
    (row-major). The rectangular invariant of a DataFrame is [well_formed]. *)
Record table : Type := mkTable {
  columns : list (string * dtype);
  rows : list row
}.

Definition well_formed (df : table) : Prop :=
  Forall (fun r => List.length r = List.length (columns df)) (rows df).

(** Value equality as pandas compares cells: numbers by numeric value. *)
Definition val_eqb (a b : val) : bool :=
  match a, b with
  | VNum x, VNum y => Qeq_bool x y
  | VInf n, VInf m => Bool.eqb n m
  | VStr s, VStr t => String.eqb s t
  | _, _ => false
  end.

(** NaN cells are equal to each other for [duplicated]. *)
Definition cell_eqb (a b : cell) : bool :=
  match a, b with
  | None, None => true
  | Some x, Some y => val_eqb x y
  | _, _ => false
  end.

Fixpoint row_eqb (r s : row) : bool :=
  match r, s with
  | [], [] => true
  | a :: r', b :: s' => cell_eqb a b && row_eqb r' s'
  | _, _ => false
  end.

(** ** [df.drop_duplicates(inplace=True)]  (src/app.py line 55)

    [duplicated(keep='first')] marks a row when some EARLIER row (kept or
    not) is equal to it across all columns; the marked rows are dropped. *)
Fixpoint drop_dup_from (earlier : list row) (rs : list row) : list row :=
  match rs with
  | [] => []
  | r :: rs' =>
      if existsb (row_eqb r) earlier
      then drop_dup_from (earlier ++ [r]) rs'
      else r :: drop_dup_from (earlier ++ [r]) rs'
  end.

Definition drop_duplicates (df : table) : table :=
  mkTable (columns df) (drop_dup_from [] (rows df)).

(** ** Column access *)

Definition column_cells (j : nat) (df : table) : list cell :=
  map (fun r => nth j r None) (rows df).

(** Positions of the columns whose dtype class is [d] ([select_dtypes]). *)
Fixpoint positions_of (d : dtype) (i : nat) (cs : list (string * dtype))
  : list nat :=
  match cs with
  | [] => []
  | (_, d') :: cs' =>
      let rest := positions_of d (S i) cs' in
      match d, d' with
      | DNumber, DNumber | DObject, DObject | DOther, DOther => i :: rest
      | _, _ => rest
      end
  end.

Definition select_dtypes (d : dtype) (df : table) : list nat :=
  positions_of d 0 (columns df).

(** ** [Series.mean()] with [skipna=True] ([nanops.nanmean]): the sum of
    the non-missing values over their count. NaN (here [None]) over zero
    non-missing values, and NaN when [inf] and [-inf] are both summed
    ([inf + -inf] is NaN); otherwise an infinity absorbs the finite values. *)
Fixpoint num_values (cs : list cell) : list Q :=
  match cs with
  | [] => []
  | Some (VNum q) :: cs' => q :: num_values cs'
  | _ :: cs' => num_values cs'
  end.

Definition has_inf (neg : bool) (cs : list cell) : bool :=
  existsb (fun c => match c with Some (VInf n) => Bool.eqb n neg | _ => false end) cs.

Definition mean (cs : list cell) : option val :=
  if has_inf false cs && has_inf true cs then None
  else if has_inf false cs then Some (VInf false)
  else if has_inf true cs then Some (VInf true)
  else match num_values cs with
       | [] => None
       | qs => Some (VNum (fold_right Qplus 0 qs / inject_Z (Z.of_nat (List.length qs)))%Q)
       end.

(** [fillna] of one cell with a fill value (a NaN fill leaves it NaN). *)
Definition fillna_cell (fill : cell) (c : cell) : cell :=
  match c with
  | None => fill
  | Some v => Some v
  end.

(** Apply [f] to the element at position [j] (nothing out of range). *)
Fixpoint update_nth {A} (j : nat) (f : A -> A) (l : list A) : list A :=
  match l, j with
  | [], _ => []
  | x :: l', 0 => f x :: l'
  | x :: l', S j' => x :: update_nth j' f l'
  end.

(** [df[cols] = df[cols].fillna(means)]: for each selected column [j],
    the missing cells of [j] get the fill value computed for [j]. *)
Definition fill_columns (fills : list (nat * cell)) (df : table) : table :=
  mkTable (columns df)
    (map (fun r =>
            fold_left (fun r' '(j, v) => update_nth j (fillna_cell v) r')
                      fills r)
         (rows df)).

(** ** Fill Missing Values button (src/app.py lines 59-61):
    [numeric_cols = df.select_dtypes(include=['number']).columns]
    [df[numeric_cols] = df[numeric_cols].fillna(df[numeric_cols].mean())] *)
Definition fill_missing_mean (df : table) : table :=
  let numeric_cols := select_dtypes DNumber df in
  let means := map (fun j => (j, mean (column_cells j df)))
                   numeric_cols in
  fill_columns means df.

(** ** Column projection [df = df[columns]] (src/app.py line 80): each
    selected label picks the column carrying it. *)
Fixpoint index_of (name : string) (i : nat) (cs : list (string * dtype))
  : option nat :=
  match cs with
  | [] => None
  | (n, _) :: cs' => if String.eqb n name then Some i else index_of name (S i) cs'
  end.

Definition project (sel : list string) (df : table) : option table :=
  let idx := map (fun n => index_of n 0 (columns df)) sel in
  if existsb (fun o => match o with None => true | Some _ => false end) idx
  then None (* KeyError: label not in columns *)
  else
    let js := map (fun o => match o with Some j => j | None => 0%nat end) idx in
    Some (mkTable (map (fun j => nth j (columns df) (EmptyString, DOther)) js)
                  (map (fun r => map (fun j => nth j r None) js) (rows df))).

Definition column_names (df : table) : list string := map fst (columns df).

(** ** Raised exceptions and fallible computations *)

Inductive exn : Type :=
| ValueError (msg : string)
| TypeError (msg : string)
| UnicodeDecodeError
| EmptyDataError.

Inductive result (A : Type) : Type :=
| Ok (a : A)
| Raise (e : exn).
Arguments Ok {A} a.
Arguments Raise {A} e.

Definition bind {A B} (m : result A) (k : A -> result B) : result B :=
  match m with
  | Ok a => k a
  | Raise e => Raise e
  end.

Notation "x <- m ;; k" := (bind m (fun x => k))
  (at level 61, m at next level, right associativity).

(** ** scikit-learn's [SimpleImputer(strategy=...).fit_transform(X)] *)

Inductive strategy : Type := Mean | MostFrequent.

Fixpoint present_values (cs : list cell) : list val :=
  match cs with
  | [] => []
  | Some v :: cs' => v :: present_values cs'
  | None :: cs' => present_values cs'
  end.

Definition count_of (v : val) (vs : list val) : nat :=
  List.length (filter (val_eqb v) vs).

Fixpoint max_nat (l : list nat) : nat :=
  match l with
  | [] => 0
  | n :: l' => Nat.max n (max_nat l')
  end.

(** Python's [x < m] between two values: numbers (infinities included)
    compare with numbers and strings with strings (by code point); a number
    and a string raise [TypeError] ([None] here). *)
Definition py_lt (x m : val) : option bool :=
  match x, m with
  | VNum a, VNum b => Some (negb (Qle_bool b a))
  | VNum _, VInf neg => Some (negb neg)
  | VInf neg, VNum _ => Some neg
  | VInf n1, VInf n2 => Some (n1 && negb n2)
  | VStr a, VStr b => Some (match String.compare a b with Lt => true | _ => false end)
  | _, _ => None
  end.

(** Python's [min] over the items after the first one [m]: each item [x]
    with [x < m] becomes the minimum. *)
Fixpoint py_min_from (m : val) (vs : list val) : result val :=
  match vs with
  | [] => Ok m
  | x :: vs' =>
      match py_lt x m with
      | Some true => py_min_from x vs'
      | Some false => py_min_from m vs'
      | None => Raise (TypeError "'<' not supported between instances")
      end
  end.

(** [_most_frequent] on object data: the largest count of a [Counter], ties
    broken by Python's [min] over the tied values, which raises [TypeError]
    when it has to compare a number with a string. *)
Definition most_frequent (vs : list val) : result (option val) :=
  let top := max_nat (map (fun v => count_of v vs) vs) in
  let tied := filter (fun v => Nat.eqb (count_of v vs) top) vs in
  match tied with
  | [] => Ok None
  | v :: vs' => m <- py_min_from v vs' ;; Ok (Some m)
  end.

(** [check_array(..., force_all_finite="allow-nan")] in the mean imputer's
    input validation: an infinite value is refused. *)
Definition inf_error : exn :=
  ValueError "Input X contains infinity or a value too large for dtype('float64').".

(** The statistic of one column; [None] is a NaN statistic (no observed
    value), whose column [fit_transform] then skips. The mean imputer
    refuses infinite input; the most-frequent imputer works on object data,
    which it does not check for infinities. *)
Definition statistic (st : strategy) (cs : list cell) : result (option val) :=
  match st with
  | Mean => if has_inf false cs || has_inf true cs then Raise inf_error
            else Ok (mean cs)
  | MostFrequent => most_frequent (present_values cs)
  end.

Fixpoint statistics (st : strategy) (df : table) (cols : list nat)
  : result (list (nat * option val)) :=
  match cols with
  | [] => Ok []
  | j :: cols' =>
      s <- statistic st (column_cells j df) ;;
      rest <- statistics st df cols' ;;
      Ok ((j, s) :: rest)
  end.

(** [df[cols] = SimpleImputer(strategy=st).fit_transform(df[cols])]:
    [check_array] refuses an input with no feature (a DataFrame with no
    column: [np.result_type()] of its empty dtype list raises) or no sample;
    a column without observed value is dropped from the output (the default
    [keep_empty_features=False]), and assigning an output narrower than
    [cols] back to [df[cols]] raises. The output is written back whole; it
    differs from the input only in the filled cells, up to the float64 cast
    of the mean imputer's columns, which exact numbers do not show. *)
Definition impute_assign (st : strategy) (cols : list nat) (df : table)
  : result table :=
  match cols, rows df with
  | [], _ => Raise (ValueError "at least one array or dtype is required")
  | _, [] => Raise (ValueError "Found array with 0 sample(s)")
  | _, _ =>
      stats <- statistics st df cols ;;
      if existsb (fun '(_, s) => match s with None => true | Some _ => false end) stats
      then Raise (ValueError "Columns must be same length as key")
      else Ok (fill_columns stats df)
  end.

(** ** AI Clean Data button (src/app.py lines 66-75). *)
Definition impute_mixed (df : table) : result table :=
  df1 <- impute_assign Mean (select_dtypes DNumber df) df ;;
  impute_assign MostFrequent (select_dtypes DObject df1) df1.

(** ** Bytes, text decoding and the uploaded file's read position *)

(** A byte is an integer in [0, 256); decoded text is a list of code points. *)
Definition byte := Z.

Open Scope Z_scope.

Definition is_cont (b : byte) : bool := (0x80 <=? b)%Z && (b <=? 0xBF)%Z.

Definition in_range (lo hi b : byte) : bool := (lo <=? b)%Z && (b <=? hi)%Z.

(** Python's strict [bytes.decode('utf-8')]: shortest forms only, no
    surrogates, nothing above U+10FFFF; [None] is a [UnicodeDecodeError]. *)
Fixpoint utf8_decode (bs : list byte) : option (list Z) :=
  match bs with
  | [] => Some []
  | b0 :: rest =>
      if (b0 <? 0x80)%Z then option_map (cons b0) (utf8_decode rest)
      else if in_range 0xC2 0xDF b0 then
        match rest with
        | b1 :: rest1 =>
            if is_cont b1
            then option_map (cons (Z.lor (Z.shiftl (Z.land b0 0x1F) 6)
                                         (Z.land b1 0x3F)))
                            (utf8_decode rest1)
            else None
        | [] => None
        end
      else if in_range 0xE0 0xEF b0 then
        match rest with
        | b1 :: b2 :: rest2 =>
            let lo1 := if (b0 =? 0xE0)%Z then 0xA0%Z else 0x80%Z in
            let hi1 := if (b0 =? 0xED)%Z then 0x9F%Z else 0xBF%Z in
            if in_range lo1 hi1 b1 && is_cont b2
            then option_map (cons (Z.lor (Z.shiftl (Z.land b0 0x0F) 12)
                                   (Z.lor (Z.shiftl (Z.land b1 0x3F) 6)
                                          (Z.land b2 0x3F))))
                            (utf8_decode rest2)
            else None
        | _ => None
        end
      else if in_range 0xF0 0xF4 b0 then
        match rest with
        | b1 :: b2 :: b3 :: rest3 =>
            let lo1 := if (b0 =? 0xF0)%Z then 0x90%Z else 0x80%Z in
            let hi1 := if (b0 =? 0xF4)%Z then 0x8F%Z else 0xBF%Z in
            if in_range lo1 hi1 b1 && is_cont b2 && is_cont b3
            then option_map (cons (Z.lor (Z.shiftl (Z.land b0 0x07) 18)
                                   (Z.lor (Z.shiftl (Z.land b1 0x3F) 12)
                                   (Z.lor (Z.shiftl (Z.land b2 0x3F) 6)
                                          (Z.land b3 0x3F)))))
                            (utf8_decode rest3)
            else None
        | _ => None
        end
      else None
  end.

Open Scope nat_scope.

(** [bytes.decode('latin1')]: every byte is its own code point. *)
Definition latin1_decode (bs : list byte) : list Z := bs.

Inductive encoding : Type := Utf8 | Latin1.

(** The uploaded file object (a [BytesIO]): its bytes and read position. *)
Record stream : Type := mkStream {
  content : list byte;
  pos : nat
}.

(** The smallest block the reader pulls: the text wrapper's chunk size
    (pandas asks for 256 KiB at a time, which is more). *)
Definition min_read_block : nat := 8 * 1024.

Section CsvIngestion.

(** The CSV tokenizer of pandas with [on_bad_lines="skip"], applied to the
    decoded text; its internals are outside this development. *)
Variable A : Type.
Variable parse : list Z -> result A.

(** [pd.read_csv(file, encoding=enc, on_bad_lines="skip")] on a file
    object: pandas wraps the object in a text reader and pulls bytes from
    its CURRENT position; it never seeks. The bytes are pulled in blocks
    (at least [min_read_block] bytes at a time), and for an input no longer
    than one block the whole remainder has been consumed when decoding
    fails, which is what is modelled here. Empty
    text raises [EmptyDataError] ("No columns to parse from file"). *)
Definition read_csv (enc : encoding) (s : stream) : result A * stream :=
  let bs := skipn (pos s) (content s) in
  let s' := mkStream (content s) (List.length (content s)) in
  let decoded := match enc with
                 | Utf8 => utf8_decode bs
                 | Latin1 => Some (latin1_decode bs)
                 end in
  match decoded with
  | None => (Raise UnicodeDecodeError, s')
  | Some [] => (Raise EmptyDataError, s')
  | Some text => (parse text, s')
  end.

(** src/app.py lines 20-23:
    [try: df = pd.read_csv(file, encoding="utf-8", ...)]
    [except UnicodeDecodeError: df = pd.read_csv(file, encoding="latin1", ...)] *)
Definition ingest_csv (s : stream) : result A * stream :=
  match read_csv Utf8 s with
  | (Raise UnicodeDecodeError, s1) => read_csv Latin1 s1
  | other => other
  end.

(** What the claim describes: both parses read the complete content. *)
Definition ingest_csv_from_start (s : stream) : result A :=
  match utf8_decode (content s) with
  | Some text => match text with [] => Raise EmptyDataError | _ => parse text end
  | None =>
      match latin1_decode (content s) with
      | [] => Raise EmptyDataError
      | text => parse text
      end
  end.

End CsvIngestion.

(** ** File names: [os.path.splitext], [str.lower], [str.replace] *)

Fixpoint rfind_from (c : ascii) (i : nat) (l : list ascii) (acc : option nat)
  : option nat :=
  match l with
  | [] => acc
  | x :: l' => rfind_from c (S i) l' (if Ascii.eqb x c then Some i else acc)
  end.

(** [str.rfind]: the last index of [c], [None] for Python's [-1]. *)
Definition rfind (c : ascii) (l : list ascii) : option nat := rfind_from c 0 l None.

(** [os.path.splitext(p)[-1]] (posixpath): the part from the last dot, if
    that dot is after the last ['/'] and the base name does not consist only
    of dots before it; otherwise the empty string. *)
Definition splitext_ext (p : string) : string :=
  let l := list_ascii_of_string p in
  match rfind "."%char l with
  | None => EmptyString
  | Some d =>
      let start := match rfind "/"%char l with None => 0 | Some k => S k end in
      if start <=? d then
        if existsb (fun c => negb (Ascii.eqb c "."%char))
                   (firstn (d - start) (skipn start l))
        then string_of_list_ascii (skipn d l)
        else EmptyString
      else EmptyString
  end.

Definition lower_ascii (c : ascii) : ascii :=
  let n := nat_of_ascii c in
  if (65 <=? n) && (n <=? 90) then ascii_of_nat (n + 32) else c.

(** [str.lower()], on ASCII text. *)
Fixpoint lower (s : string) : string :=
  match s with
  | EmptyString => EmptyString
  | String c s' => String (lower_ascii c) (lower s')
  end.

Fixpoint replace_nonempty (fuel : nat) (old new s : string) : string :=
  match fuel with
  | 0 => s
  | S f =>
      match s with
      | EmptyString => EmptyString
      | String c s' =>
          if String.prefix old s
          then String.append new
                 (replace_nonempty f old new
                    (substring (String.length old)
                               (String.length s - String.length old) s))
          else String c (replace_nonempty f old new s')
      end
  end.

Fixpoint interleave (new s : string) : string :=
  match s with
  | EmptyString => new
  | String c s' => String.append new (String c (interleave new s'))
  end.

(** [s.replace(old, new)]: every non-overlapping occurrence of [old], left
    to right; an empty [old] matches between any two characters. *)
Definition py_replace (old new s : string) : string :=
  match old with
  | EmptyString => interleave new s
  | _ => replace_nonempty (String.length s) old new s
  end.

(** ** The export buffer: [io.BytesIO] *)

Record bytesio : Type := mkBytesIO {
  bdata : list byte;
  bpos : nat
}.

Definition bytesio_new : bytesio := mkBytesIO [] 0.

(** [buffer.write(bs)] at the current position (overwriting, extending). *)
Definition bytesio_write (bs : list byte) (b : bytesio) : bytesio :=
  mkBytesIO (firstn (bpos b) (bdata b) ++ bs ++ skipn (bpos b + List.length bs) (bdata b))
            (bpos b + List.length bs).

(** [buffer.seek(0)] *)
Definition bytesio_seek0 (b : bytesio) : bytesio := mkBytesIO (bdata b) 0.

(** ** User-visible events of one script run *)

Inductive event : Type :=
| EvError (msg : string)
| EvSuccess (msg : string)
| EvDownload (label : string) (data : bytesio) (file_name mime : string).

Definition xlsx_mime : string :=
  "application/vnd.openxmlformats-officedocument.spreadsheetml.sheet".

Definition ev_is_download (e : event) : bool :=
  match e with EvDownload _ _ _ _ => true | _ => false end.

Section Conversion.

(** [df.to_csv(buffer, index=False, encoding="utf-8")] and
    [df.to_excel(buffer, index=False, engine="openpyxl")]: the serialized
    bytes of the table (the serializers are pandas' and openpyxl's). *)
Variable to_csv_bytes : table -> result (list byte).
Variable to_excel_bytes : table -> result (list byte).

(** The conversion branch (src/app.py lines 92-103): the buffer, the
    output file name and the MIME type it leaves behind. *)
Definition conversion_branch (df : table) (fname file_ext conversion_type : string)
  : result (bytesio * string * string) :=
  let buffer := bytesio_new in
  if String.eqb conversion_type "CSV" then
    bs <- to_csv_bytes df ;;
    Ok (bytesio_write bs buffer, py_replace file_ext ".csv" fname, "text/csv"%string)
  else if String.eqb conversion_type "EXCEL" then
    bs <- to_excel_bytes df ;;
    Ok (bytesio_write bs buffer, py_replace file_ext ".xlsx" fname, xlsx_mime)
  else Ok (buffer, EmptyString, EmptyString).

(** The Convert button (src/app.py lines 91-116); the emoji of the
    messages are left out. *)
Definition convert (df : table) (fname file_ext conversion_type : string)
  : result (list event) :=
  r <- conversion_branch df fname file_ext conversion_type ;;
  let '(buffer0, file_name, mime_type) := r in
  let buffer := bytesio_seek0 buffer0 in
  match mime_type with
  | EmptyString => Ok [EvError "Conversion type not selected properly."]
  | _ => Ok [EvDownload (String.append "Download "
                           (String.append fname
                             (String.append " as " conversion_type)))
                        buffer file_name mime_type]
  end.

End Conversion.

(** ** The per-file loop (src/app.py lines 15-28) *)

Record uploaded_file : Type := mkFile {
  name : string;
  size : nat;
  data : list byte
}.

Definition file_stream (f : uploaded_file) : stream := mkStream (data f) 0.

Section FileLoop.

Variable parse_csv_text : list Z -> result table.
Variable read_excel : list byte -> result table.
(** Everything the loop body does once [df] is read (lines 30-116). *)
Variable stages : uploaded_file -> string -> table -> result (list event).

Definition process_file (f : uploaded_file) : result (list event) :=
  let file_ext := lower (splitext_ext (name f)) in
  if String.eqb file_ext ".csv" then
    df <- fst (ingest_csv table parse_csv_text (file_stream f)) ;;
    stages f file_ext df
  else if String.eqb file_ext ".xlsx" then
    df <- read_excel (data f) ;;
    stages f file_ext df
  else Ok [EvError (String.append "Unsupported file type: " file_ext)].

(** [for file in uploaded_files: ...]: an exception ends the script run,
    [continue] goes on with the next file. *)
Fixpoint process_files (fs : list uploaded_file) : list event * option exn :=
  match fs with
  | [] => ([], None)
  | f :: fs' =>
      match process_file f with
      | Raise e => ([], Some e)
      | Ok evs => let '(rest, err) := process_files fs' in (evs ++ rest, err)
      end
  end.

End FileLoop.

(** ** Inspection (src/app.py lines 34-46) *)

(** [df.head(n)]: the first [n] rows. *)
Definition head (n : nat) (df : table) : table :=
  mkTable (columns df) (firstn n (rows df)).

(** The preview [st.dataframe(df.head())] (line 36): [n] defaults to 5. *)
Definition preview (df : table) : table := head 5 df.

(** [df.duplicated()] (keep='first'), one flag per row. *)
Fixpoint dup_flags (earlier : list row) (rs : list row) : list bool :=
  match rs with
  | [] => []
  | r :: rs' => existsb (row_eqb r) earlier :: dup_flags (earlier ++ [r]) rs'
  end.

Definition duplicated (df : table) : list bool := dup_flags [] (rows df).

(** [df.duplicated().sum()] (line 44). *)
Definition duplicate_count (df : table) : nat :=
  List.length (filter (fun b => b) (duplicated df)).

Definition is_missing (c : cell) : bool :=
  match c with None => true | Some _ => false end.

(** [df.isnull().sum().sum()] (line 43). *)
Definition total_missing (df : table) : nat :=
  fold_right (fun r acc => List.length (filter is_missing r) + acc) 0 (rows df).

(** The cell of row [i], column [j] ([df.iat[i, j]]); [None] out of range. *)
Definition cell_at (i j : nat) (df : table) : cell :=
  match nth_error (rows df) i with
  | Some r => nth j r None
  | None => None
  end.

(** ** Visualization (line 85):
    [st.bar_chart(df.select_dtypes(include='number').iloc[:, :2])] *)

(** The columns at positions [js], in that order ([iloc] on columns). *)
Definition take_columns (js : list nat) (df : table) : table :=
  mkTable (map (fun j => nth j (columns df) (EmptyString, DOther)) js)
          (map (fun r => map (fun j => nth j r None) js) (rows df)).

Definition bar_chart_data (df : table) : table :=
  take_columns (firstn 2 (select_dtypes DNumber df)) df.

(** * Properties *)

(** ** Removing duplicates *)

(** [fresh prev l]: no element of [l] equals an element before it, counting
    the rows [prev] as coming first. *)
Fixpoint fresh (prev : list row) (l : list row) : Prop :=
  match l with
  | [] => True
  | r :: rs => existsb (row_eqb r) prev = false /\ fresh (prev ++ [r]) rs
  end.

Lemma drop_dup_from_fresh_id :
  forall l prev, fresh prev l -> drop_dup_from prev l = l.
Proof.
  induction l as [|r rs IH]; intros prev Hf; simpl in *; [reflexivity|].
  destruct Hf as [Hr Hrs]. rewrite Hr. f_equal. apply IH. exact Hrs.
Qed.

Lemma existsb_incl {X} (p : X -> bool) (q prev : list X) :
  (forall x, In x q -> In x prev) ->
  existsb p prev = false -> existsb p q = false.
Proof.
  intros Hincl Hprev. destruct (existsb p q) eqn:E; [|reflexivity].
  apply existsb_exists in E as [x [Hx Hpx]].
  assert (Hin : existsb p prev = true) by (apply existsb_exists; eauto).
  congruence.
Qed.

Lemma drop_dup_from_fresh :
  forall l prev q, (forall x, In x q -> In x prev) ->
  fresh q (drop_dup_from prev l).
Proof.
  induction l as [|r rs IH]; intros prev q Hincl; simpl; [exact I|].
  destruct (existsb (row_eqb r) prev) eqn:E.
  - apply IH. intros x Hx. apply in_or_app. left. auto.
  - simpl. split.
    + eapply existsb_incl; eauto.
    + apply IH. intros x Hx. apply in_app_or in Hx as [Hx|Hx];
        apply in_or_app; [left; auto | right; exact Hx].
Qed.

(** ** Column selection *)

Lemma map_nth_seq_id {X} (d : X) :
  forall l : list X, map (fun j => nth j l d) (seq 0 (List.length l)) = l.
Proof.
  induction l as [|x l IH]; [reflexivity|].
  simpl. f_equal. rewrite <- seq_shift, map_map. exact IH.
Qed.

Lemma index_of_names :
  forall cs k, NoDup (map fst cs) ->
  map (fun n => index_of n k cs) (map fst cs) = map Some (seq k (List.length cs)).
Proof.
  induction cs as [|[n d] cs IH]; intros k Hnd; [reflexivity|].
  simpl in *. inversion Hnd as [|? ? Hnotin Hnd']; subst.
  rewrite String.eqb_refl. f_equal.
  rewrite <- (IH (S k) Hnd'). apply map_ext_in. intros n' Hin.
  destruct (String.eqb n n') eqn:E; [|reflexivity].
  apply String.eqb_eq in E. subst. contradiction.
Qed.

(** ** Filling missing values *)

Lemma update_nth_length {X} (f : X -> X) :
  forall l j, List.length (update_nth j f l) = List.length l.
Proof. induction l as [|x l IH]; intros [|j]; simpl; auto. Qed.

Lemma nth_update_nth {X} (f : X -> X) (d : X) :
  forall l j k,
  nth k (update_nth j f l) d =
  if Nat.eqb k j && (k <? List.length l) then f (nth k l d) else nth k l d.
Proof.
  induction l as [|x l IH]; intros j k.
  - simpl. rewrite andb_false_r. destruct j, k; reflexivity.
  - destruct j as [|j], k as [|k]; simpl; try reflexivity.
    rewrite IH. reflexivity.
Qed.

Definition fill_step (r : row) (jv : nat * cell) : row :=
  let '(j, v) := jv in update_nth j (fillna_cell v) r.

Lemma fold_fill_length :
  forall fills r, List.length (fold_left fill_step fills r) = List.length r.
Proof.
  induction fills as [|[j v] fills IH]; intros r; simpl; [reflexivity|].
  rewrite IH. apply update_nth_length.
Qed.

Lemma nth_fold_fill (g : nat -> cell) :
  forall js r k, NoDup js ->
  nth k (fold_left fill_step (map (fun j => (j, g j)) js) r) None =
  if existsb (Nat.eqb k) js && (k <? List.length r)
  then fillna_cell (g k) (nth k r None) else nth k r None.
Proof.
  induction js as [|j js IH]; intros r k Hnd; simpl; [reflexivity|].
  inversion Hnd as [|? ? Hj Hnd']; subst.
  rewrite IH by exact Hnd'. rewrite update_nth_length, nth_update_nth.
  destruct (Nat.eqb k j) eqn:Ekj; simpl.
  - apply Nat.eqb_eq in Ekj; subst.
    assert (Hno : existsb (Nat.eqb j) js = false).
    { destruct (existsb (Nat.eqb j) js) eqn:E; [|reflexivity].
      apply existsb_exists in E as [x [Hx Hjx]].
      apply Nat.eqb_eq in Hjx; subst. contradiction. }
    rewrite Hno. simpl. destruct (j <? List.length r); reflexivity.
  - reflexivity.
Qed.

Lemma positions_of_bound :
  forall d cs i j, In j (positions_of d i cs) -> i <= j /\ j < i + List.length cs.
Proof.
  induction cs as [|[n d'] cs IH]; intros i j Hin; simpl in *; [contradiction|].
  destruct d, d'; simpl in Hin;
    try (destruct Hin as [<-|Hin]; [lia|]);
    apply IH in Hin; lia.
Qed.

Lemma positions_of_NoDup :
  forall d cs i, NoDup (positions_of d i cs).
Proof.
  induction cs as [|[n d'] cs IH]; intros i; simpl; [constructor|].
  destruct d, d'; try apply IH;
    (constructor; [intros Hin; apply positions_of_bound in Hin; lia | apply IH]).
Qed.

(** The cells of column [j] after [fill_missing_mean]. *)
Lemma column_fill_missing_mean (df : table) (j : nat) :
  well_formed df ->
  column_cells j (fill_missing_mean df) =
  if existsb (Nat.eqb j) (select_dtypes DNumber df)
  then map (fillna_cell (mean (column_cells j df)))
           (column_cells j df)
  else column_cells j df.
Proof.
  intros Hwf. unfold fill_missing_mean, fill_columns.
  set (g := fun j0 => mean (column_cells j0 df)).
  unfold column_cells at 1 3 4. simpl. rewrite map_map.
  change (fun (r' : row) (jv : nat * cell) => let '(j0, v) := jv in
            update_nth j0 (fillna_cell v) r') with fill_step.
  destruct (existsb (Nat.eqb j) (select_dtypes DNumber df)) eqn:Ej;
    [rewrite map_map|]; apply map_ext_in; intros r Hr;
    rewrite (nth_fold_fill g) by apply positions_of_NoDup; rewrite Ej.
  - apply existsb_exists in Ej as [x [Hx Hjx]]. apply Nat.eqb_eq in Hjx; subst.
    apply positions_of_bound in Hx.
    unfold well_formed in Hwf. rewrite Forall_forall in Hwf.
    rewrite (Hwf r Hr). replace (x <? List.length (columns df)) with true
      by (symmetry; apply Nat.ltb_lt; lia).
    reflexivity.
  - reflexivity.
Qed.

Lemma existsb_eqb_In (j : nat) (l : list nat) :
  existsb (Nat.eqb j) l = true <-> In j l.
Proof.
  rewrite existsb_exists. split.
  - intros [x [Hx E]]. apply Nat.eqb_eq in E. subst. exact Hx.
  - intros Hj. exists j. split; [exact Hj | apply Nat.eqb_refl].
Qed.


(** * The specification's claims *)


(** C10: on a numeric column all of whose cells are missing,
    FillMissingNumericMean leaves every cell missing (the mean is NaN). *)
Theorem fill_missing_mean_all_missing_column (df : table) (j : nat) :
  well_formed df -> In j (select_dtypes DNumber df) ->
  Forall (fun c => c = None) (column_cells j df) ->
  column_cells j (fill_missing_mean df) = column_cells j df /\
  Forall (fun c => c = None) (column_cells j (fill_missing_mean df)).
Proof.
  intros Hwf Hj Hnone.
  assert (Hsame : column_cells j (fill_missing_mean df) = column_cells j df).
  { rewrite column_fill_missing_mean by exact Hwf.
    destruct (existsb (Nat.eqb j) (select_dtypes DNumber df)); [|reflexivity].
    rewrite <- map_id. apply map_ext_in. intros c Hc.
    rewrite Forall_forall in Hnone. rewrite (Hnone c Hc). simpl.
    assert (Hm : mean (column_cells j df) = None).
    { unfold mean.
      assert (Hnv : forall cs, Forall (fun c => c = None) cs -> num_values cs = []).
      { induction cs as [|c' cs IH]; intros H; [reflexivity|].
        inversion H; subst. simpl. apply IH. assumption. }
      assert (Hinf : forall b, has_inf b (column_cells j df) = false).
      { intros b. unfold has_inf. apply not_true_is_false. intros Hx.
        apply existsb_exists in Hx as [c' [Hc' Hx]].
        rewrite (Hnone c' Hc') in Hx. discriminate. }
      rewrite !Hinf. simpl.
      rewrite Hnv by (rewrite Forall_forall; exact Hnone). reflexivity. }
    rewrite Hm. reflexivity. }
  split; [exact Hsame | rewrite Hsame; exact Hnone].
Qed.

(** C4: RemoveDuplicates is idempotent. *)
Theorem drop_duplicates_idempotent (df : table) :
  drop_duplicates (drop_duplicates df) = drop_duplicates df.
Proof.
  unfold drop_duplicates. simpl. f_equal.
  apply drop_dup_from_fresh_id.
  apply drop_dup_from_fresh. intros x [].
Qed.

(** C6: selecting all of a table's columns (the default of the column
    multiselect) returns the table itself. *)
Theorem project_all_columns (df : table) :
  NoDup (column_names df) -> well_formed df ->
  project (column_names df) df = Some df.
Proof.
  intros Hnd Hwf. unfold project, column_names in *.
  rewrite index_of_names by exact Hnd.
  assert (Hex : forall n k,
            existsb (fun o => match o with None => true | Some _ => false end)
                    (map Some (seq k n)) = false).
  { induction n as [|n IH]; intros k; [reflexivity|]. simpl. apply IH. }
  assert (Hjs : forall l : list nat,
            map (fun o => match o with Some j => j | None => 0 end) (map Some l) = l).
  { induction l as [|x l IH]; [reflexivity|]. simpl. f_equal. exact IH. }
  rewrite Hex. simpl. rewrite Hjs.
  destruct df as [cs rs]. simpl in *. f_equal. f_equal.
  - apply map_nth_seq_id.
  - rewrite <- (map_id rs) at 2. apply map_ext_in. intros r Hr.
    unfold well_formed in Hwf. simpl in Hwf. rewrite Forall_forall in Hwf.
    rewrite <- (Hwf r Hr). apply map_nth_seq_id.
Qed.

(** C1 (failing input): a clean table with a text column and no numeric
    column. RemoveDuplicates and FillMissingNumericMean leave it unchanged,
    but ImputeMixed raises: the mean imputer is fitted on zero columns. *)
Theorem impute_mixed_raises_without_numeric_column :
  let df := mkTable [("name"%string, DObject)]
                    [[Some (VStr "a")]; [Some (VStr "b")]] in
  drop_duplicates df = df /\ fill_missing_mean df = df /\
  impute_mixed df = Raise (ValueError "at least one array or dtype is required").
Proof. repeat split; reflexivity. Qed.

(** C2 (failing input): the bytes of ["caf\xe9\n"] (Latin-1, not UTF-8).
    The UTF-8 read consumes the stream and fails to decode; the Latin-1
    retry reads from where the first read stopped, sees no byte and raises
    [EmptyDataError], where a retry from the start would parse the whole
    content. The parser here returns the text it is given. *)
Theorem ingest_csv_retry_sees_consumed_stream :
  let s := mkStream [0x63; 0x61; 0x66; 0xE9; 0x0A]%Z 0 in
  fst (ingest_csv (list Z) (fun text => Ok text) s) = Raise EmptyDataError /\
  ingest_csv_from_start (list Z) (fun text => Ok text) s
    = Ok [0x63; 0x61; 0x66; 0xE9; 0x0A]%Z.
Proof. split; reflexivity. Qed.

(** C5: a file whose lower-cased extension is neither [.csv] nor [.xlsx]
    produces only the "Unsupported file type" error, and the loop goes on
    with the remaining files exactly as if that file had not been there. *)
Theorem process_files_skips_unsupported
    (parse_csv_text : list Z -> result table)
    (read_excel : list byte -> result table)
    (stages : uploaded_file -> string -> table -> result (list event))
    (f : uploaded_file) (fs : list uploaded_file) :
  lower (splitext_ext (name f)) <> ".csv"%string ->
  lower (splitext_ext (name f)) <> ".xlsx"%string ->
  process_files parse_csv_text read_excel stages (f :: fs) =
  (EvError (String.append "Unsupported file type: " (lower (splitext_ext (name f))))
     :: fst (process_files parse_csv_text read_excel stages fs),
   snd (process_files parse_csv_text read_excel stages fs)).
Proof.
  intros Hcsv Hxlsx. simpl. unfold process_file.
  apply String.eqb_neq in Hcsv, Hxlsx. rewrite Hcsv, Hxlsx.
  destruct (process_files parse_csv_text read_excel stages fs); reflexivity.
Qed.

(** C7 (failing input): [str.replace] with the LOWER-CASED extension.
    Exporting ["Sales.CSV"] to Excel keeps the name ["Sales.CSV"], and
    ["a.csv.csv"] becomes ["a.xlsx.xlsx"]; the MIME type is the Excel one. *)
Theorem conversion_file_name_not_replaced :
  conversion_branch (fun _ => Ok [0x50%Z]) (fun _ => Ok [0x50%Z])
    (mkTable [] []) "Sales.CSV" (lower (splitext_ext "Sales.CSV")) "EXCEL"
  = Ok (mkBytesIO [0x50%Z] 1, "Sales.CSV"%string, xlsx_mime) /\
  conversion_branch (fun _ => Ok [0x50%Z]) (fun _ => Ok [0x50%Z])
    (mkTable [] []) "a.csv.csv" (lower (splitext_ext "a.csv.csv")) "EXCEL"
  = Ok (mkBytesIO [0x50%Z] 1, "a.xlsx.xlsx"%string, xlsx_mime).
Proof. split; reflexivity. Qed.

(** C8: when the conversion type is neither ["CSV"] nor ["EXCEL"], the
    Convert button shows an error and offers no download. *)
Theorem convert_without_format_offers_no_download
    (to_csv_bytes to_excel_bytes : table -> result (list byte))
    (df : table) (fname file_ext conversion_type : string) :
  conversion_type <> "CSV"%string -> conversion_type <> "EXCEL"%string ->
  convert to_csv_bytes to_excel_bytes df fname file_ext conversion_type
  = Ok [EvError "Conversion type not selected properly."].
Proof.
  intros Hc He. unfold convert, conversion_branch.
  apply String.eqb_neq in Hc, He. rewrite Hc, He. reflexivity.
Qed.

(** C9: the buffer of every download the Convert button offers holds
    exactly the serialized table in the chosen format, with its read
    position at the start. *)
Theorem convert_download_buffer_complete_and_rewound
    (to_csv_bytes to_excel_bytes : table -> result (list byte))
    (df : table) (fname file_ext conversion_type : string)
    (evs : list event) (label file_name mime : string) (buf : bytesio) :
  convert to_csv_bytes to_excel_bytes df fname file_ext conversion_type = Ok evs ->
  In (EvDownload label buf file_name mime) evs ->
  exists bs,
    ((conversion_type = "CSV"%string /\ to_csv_bytes df = Ok bs) \/
     (conversion_type = "EXCEL"%string /\ to_excel_bytes df = Ok bs)) /\
    buf = mkBytesIO bs 0.
Proof.
  intros Hconv Hin. unfold convert, conversion_branch in Hconv.
  destruct (String.eqb conversion_type "CSV") eqn:Ecsv.
  - apply String.eqb_eq in Ecsv.
    destruct (to_csv_bytes df) as [bs|e] eqn:Eser; simpl in Hconv; [|discriminate].
    injection Hconv as <-. destruct Hin as [Hd|[]].
    injection Hd as _ <- _ _. exists bs. split; [left; split; [exact Ecsv | reflexivity]|].
    unfold bytesio_seek0, bytesio_write. simpl. rewrite skipn_nil, app_nil_r. reflexivity.
  - destruct (String.eqb conversion_type "EXCEL") eqn:Eex.
    + apply String.eqb_eq in Eex.
      destruct (to_excel_bytes df) as [bs|e] eqn:Eser; simpl in Hconv; [|discriminate].
      injection Hconv as <-. destruct Hin as [Hd|[]].
      injection Hd as _ <- _ _. exists bs. split; [right; split; [exact Eex | reflexivity]|].
      unfold bytesio_seek0, bytesio_write. simpl. rewrite skipn_nil, app_nil_r. reflexivity.
    + simpl in Hconv. injection Hconv as <-. destruct Hin as [Hd|[]]. discriminate.
Qed.

(** * Witnesses: the claims' hypotheses hold at concrete inputs *)

Definition num (z : Z) : cell := Some (VNum (inject_Z z)).

(** The table of the specification's example, after RemoveDuplicates. *)
Definition example_table : table :=
  mkTable [("a"%string, DNumber); ("b"%string, DNumber)]
          [[num 1; num 2]; [num 3; None]].


(** The CSV text ["a,b\ninf,1\n-inf,2\n,3\n"] as [read_csv] parses it: column
    [a] is float64 with the values [inf] and [-inf] and one missing cell. *)
Definition inf_table : table :=
  mkTable [("a"%string, DNumber); ("b"%string, DNumber)]
          [[Some (VInf false); num 1]; [Some (VInf true); num 2]; [None; num 3]].


Definition all_missing_table : table :=
  mkTable [("a"%string, DNumber); ("s"%string, DObject)]
          [[None; Some (VStr "x")]; [None; Some (VStr "y")]].

Lemma fill_missing_mean_all_missing_column_witness :
  well_formed all_missing_table /\ In 0 (select_dtypes DNumber all_missing_table) /\
  Forall (fun c => c = None) (column_cells 0 all_missing_table) /\
  column_cells 0 (fill_missing_mean all_missing_table)
    = column_cells 0 all_missing_table /\
  Forall (fun c => c = None) (column_cells 0 (fill_missing_mean all_missing_table)).
Proof.
  assert (Hwf : well_formed all_missing_table) by (repeat constructor).
  assert (Hj : In 0 (select_dtypes DNumber all_missing_table)) by (left; reflexivity).
  assert (Hn : Forall (fun c => c = None) (column_cells 0 all_missing_table))
    by (repeat constructor).
  split; [exact Hwf|]. split; [exact Hj|]. split; [exact Hn|].
  exact (fill_missing_mean_all_missing_column all_missing_table 0 Hwf Hj Hn).
Defined.

Lemma project_all_columns_witness :
  NoDup (column_names example_table) /\ well_formed example_table /\
  project (column_names example_table) example_table = Some example_table.
Proof.
  assert (Hnd : NoDup (column_names example_table)).
  { constructor; [intros [H|[]]; discriminate|].
    constructor; [intros []|constructor]. }
  assert (Hwf : well_formed example_table) by (repeat constructor).
  split; [exact Hnd|]. split; [exact Hwf|].
  exact (project_all_columns example_table Hnd Hwf).
Defined.

Definition txt_file : uploaded_file := mkFile "notes.txt" 9 [0x68; 0x69]%Z.
Definition csv_file : uploaded_file := mkFile "data.csv" 4 [0x61; 0x0A; 0x31; 0x0A]%Z.

Lemma process_files_skips_unsupported_witness :
  lower (splitext_ext (name txt_file)) <> ".csv"%string /\
  lower (splitext_ext (name txt_file)) <> ".xlsx"%string /\
  process_files (fun _ => Ok (mkTable [] [])) (fun _ => Ok (mkTable [] []))
    (fun _ _ _ => Ok [EvSuccess "processed"]) [txt_file; csv_file]
  = (EvError (String.append "Unsupported file type: "
                            (lower (splitext_ext (name txt_file))))
       :: fst (process_files (fun _ => Ok (mkTable [] []))
                 (fun _ => Ok (mkTable [] []))
                 (fun _ _ _ => Ok [EvSuccess "processed"]) [csv_file]),
     snd (process_files (fun _ => Ok (mkTable [] []))
            (fun _ => Ok (mkTable [] []))
            (fun _ _ _ => Ok [EvSuccess "processed"]) [csv_file])).
Proof.
  assert (Hc : lower (splitext_ext (name txt_file)) <> ".csv"%string)
    by (vm_compute; intros H; discriminate H).
  assert (Hx : lower (splitext_ext (name txt_file)) <> ".xlsx"%string)
    by (vm_compute; intros H; discriminate H).
  split; [exact Hc|]. split; [exact Hx|].
  exact (process_files_skips_unsupported _ _ _ txt_file [csv_file] Hc Hx).
Defined.

Lemma convert_without_format_offers_no_download_witness :
  ""%string <> "CSV"%string /\ ""%string <> "EXCEL"%string /\
  convert (fun _ => Ok []) (fun _ => Ok []) example_table "data.csv" ".csv" ""
  = Ok [EvError "Conversion type not selected properly."].
Proof.
  assert (Hc : ""%string <> "CSV"%string) by discriminate.
  assert (He : ""%string <> "EXCEL"%string) by discriminate.
  split; [exact Hc|]. split; [exact He|].
  exact (convert_without_format_offers_no_download _ _ example_table
           "data.csv" ".csv" "" Hc He).
Defined.

Definition csv_serializer (_ : table) : result (list byte) :=
  Ok [0x61; 0x2C; 0x62; 0x0A]%Z.

Lemma convert_download_buffer_complete_and_rewound_witness :
  exists bs,
    (("CSV"%string = "CSV"%string /\ csv_serializer example_table = Ok bs) \/
     ("CSV"%string = "EXCEL"%string /\ (fun _ : table => Ok []) example_table = Ok bs)) /\
    mkBytesIO [0x61; 0x2C; 0x62; 0x0A]%Z 0 = mkBytesIO bs 0.
Proof.
  apply (convert_download_buffer_complete_and_rewound csv_serializer
           (fun _ => Ok []) example_table "data.csv" ".csv" "CSV"
           [EvDownload "Download data.csv as CSV"
              (mkBytesIO [0x61; 0x2C; 0x62; 0x0A]%Z 0) "data.csv" "text/csv"]
           "Download data.csv as CSV" "data.csv" "text/csv").
  - reflexivity.
  - left. reflexivity.
Defined.

(** * Further properties of the code *)

(** ** Preview *)

(** The preview shows [min 5 n] rows of an [n]-row table: its first rows,
    in order, with all columns. *)
Theorem preview_first_rows (df : table) :
  columns (preview df) = columns df /\
  List.length (rows (preview df)) = Nat.min 5 (List.length (rows df)) /\
  exists rest, rows df = rows (preview df) ++ rest.
Proof.
  unfold preview, head. cbn [columns rows]. split; [reflexivity|]. split.
  - apply length_firstn.
  - exists (skipn 5 (rows df)). symmetry. apply firstn_skipn.
Qed.

(** ** Duplicates *)

Lemma dup_flags_drop_count :
  forall l prev,
  List.length (filter (fun b => b) (dup_flags prev l))
  + List.length (drop_dup_from prev l) = List.length l.
Proof.
  induction l as [|r rs IH]; intros prev; simpl; [reflexivity|].
  destruct (existsb (row_eqb r) prev); simpl; rewrite <- (IH (prev ++ [r])); lia.
Qed.

(** The "Total Duplicate Rows" of the summary report is exactly the number
    of rows RemoveDuplicates deletes. *)
Theorem duplicate_count_plus_kept (df : table) :
  duplicate_count df + List.length (rows (drop_duplicates df))
  = List.length (rows df).
Proof. apply dup_flags_drop_count. Qed.

Lemma dup_flags_fresh :
  forall l prev, fresh prev l -> dup_flags prev l = repeat false (List.length l).
Proof.
  induction l as [|r rs IH]; intros prev Hf; [reflexivity|].
  destruct Hf as [Hr Hrs]. simpl. rewrite Hr, (IH _ Hrs). reflexivity.
Qed.

(** After RemoveDuplicates no row is flagged by [duplicated()]: the summary
    report shows 0 duplicate rows. *)
Theorem drop_duplicates_no_duplicate_left (df : table) :
  duplicated (drop_duplicates df) = repeat false (List.length (rows (drop_duplicates df))) /\
  duplicate_count (drop_duplicates df) = 0.
Proof.
  assert (H : duplicated (drop_duplicates df)
              = repeat false (List.length (rows (drop_duplicates df)))).
  { apply dup_flags_fresh. apply drop_dup_from_fresh. intros x []. }
  split; [exact H|]. unfold duplicate_count. rewrite H.
  generalize (List.length (rows (drop_duplicates df))).
  induction n as [|n IH]; simpl; [reflexivity | exact IH].
Qed.

Lemma drop_dup_from_incl :
  forall l prev x, In x (drop_dup_from prev l) -> In x l.
Proof.
  induction l as [|r rs IH]; intros prev x Hx; simpl in *; [exact Hx|].
  destruct (existsb (row_eqb r) prev); [right; eapply IH; eauto|].
  destruct Hx as [<-|Hx]; [left; reflexivity | right; eapply IH; eauto].
Qed.

Lemma val_eqb_refl (v : val) : val_eqb v v = true.
Proof.
  destruct v as [q|n|t]; simpl;
    [apply Qeq_bool_refl | destruct n; reflexivity | apply String.eqb_refl].
Qed.

Lemma val_eqb_trans (a b c : val) :
  val_eqb a b = true -> val_eqb b c = true -> val_eqb a c = true.
Proof.
  destruct a, b, c; simpl; try discriminate; [apply Qeq_bool_trans| |].
  - intros H1 H2. apply Bool.eqb_prop in H1, H2. subst. apply Bool.eqb_reflx.
  - intros H1 H2. apply String.eqb_eq in H1, H2. subst. apply String.eqb_refl.
Qed.

Lemma row_eqb_refl : forall r, row_eqb r r = true.
Proof.
  induction r as [|[v|] r IH]; simpl; auto. rewrite val_eqb_refl. exact IH.
Qed.

Lemma row_eqb_trans :
  forall r s t, row_eqb r s = true -> row_eqb s t = true -> row_eqb r t = true.
Proof.
  induction r as [|a r IH]; intros [|b s] [|c t]; simpl; try discriminate; auto.
  intros H1 H2. apply andb_prop in H1 as [Hab Hrs]. apply andb_prop in H2 as [Hbc Hst].
  apply andb_true_intro. split; [|eapply IH; eauto].
  destruct a, b, c; simpl in *; try discriminate; auto. eapply val_eqb_trans; eauto.
Qed.

Lemma drop_dup_from_cover :
  forall l prev x, In x l ->
  (exists e, In e prev /\ row_eqb x e = true) \/
  (exists y, In y (drop_dup_from prev l) /\ row_eqb x y = true).
Proof.
  induction l as [|r rs IH]; intros prev x Hx; [destruct Hx|].
  simpl. destruct (existsb (row_eqb r) prev) eqn:Er.
  - apply existsb_exists in Er as [e [He Hre]].
    destruct Hx as [<-|Hx]; [left; eauto|].
    destruct (IH (prev ++ [r]) x Hx) as [[e' [He' Hxe']]|Hy]; [|right; exact Hy].
    apply in_app_or in He' as [He'|[<-|[]]]; left; eauto.
    exists e. split; [exact He|]. eapply row_eqb_trans; eauto.
  - destruct Hx as [<-|Hx].
    + right. exists r. split; [left; reflexivity | apply row_eqb_refl].
    + destruct (IH (prev ++ [r]) x Hx) as [[e' [He' Hxe']]|[y [Hy Hxy]]].
      * apply in_app_or in He' as [He'|[<-|[]]]; [left; eauto|].
        right. exists r. split; [left; reflexivity | exact Hxe'].
      * right. exists y. split; [right; exact Hy | exact Hxy].
Qed.

(** RemoveDuplicates only deletes rows: every kept row is a row of the
    input, every input row equals some kept row, and the result keeps the
    columns and stays rectangular. *)
Theorem drop_duplicates_keeps_representatives (df : table) :
  columns (drop_duplicates df) = columns df /\
  (forall r, In r (rows (drop_duplicates df)) -> In r (rows df)) /\
  (forall r, In r (rows df) ->
     exists r', In r' (rows (drop_duplicates df)) /\ row_eqb r r' = true) /\
  (well_formed df -> well_formed (drop_duplicates df)).
Proof.
  split; [reflexivity|]. split; [|split].
  - intros r Hr. eapply drop_dup_from_incl. exact Hr.
  - intros r Hr. destruct (drop_dup_from_cover (rows df) [] r Hr)
      as [[e [[] _]]|Hy]; exact Hy.
  - unfold well_formed. rewrite !Forall_forall. intros H r Hr.
    apply H. eapply drop_dup_from_incl. exact Hr.
Qed.

(** ** Filling missing values *)

Lemma update_fillna_present (v : cell) :
  forall r j k x, nth k r None = Some x ->
  nth k (update_nth j (fillna_cell v) r) None = Some x.
Proof.
  intros r j k x Hx. change (@nth cell k r None = Some x) in Hx.
  rewrite nth_update_nth, Hx. destruct (_ && _); reflexivity.
Qed.

Lemma fold_fill_present :
  forall fills (r : row) k (x : val), nth k r None = Some x ->
  nth k (fold_left fill_step fills r) None = Some x.
Proof.
  induction fills as [|[j v] fills IH]; intros r k x Hx; simpl; [exact Hx|].
  apply IH. apply update_fillna_present. exact Hx.
Qed.

Lemma update_fillna_missing_le (v : cell) :
  forall r j, List.length (filter is_missing (update_nth j (fillna_cell v) r))
              <= List.length (filter is_missing r).
Proof.
  induction r as [|c r IH]; intros [|j]; simpl; try lia.
  - destruct c, v; simpl; lia.
  - specialize (IH j). destruct (is_missing c); simpl; lia.
Qed.

Lemma fold_fill_missing_le :
  forall fills r, List.length (filter is_missing (fold_left fill_step fills r))
                  <= List.length (filter is_missing r).
Proof.
  induction fills as [|[j v] fills IH]; intros r; simpl; [lia|].
  etransitivity; [apply IH | apply update_fillna_missing_le].
Qed.

Lemma fill_columns_well_formed (fills : list (nat * cell)) (df : table) :
  well_formed df -> well_formed (fill_columns fills df).
Proof.
  unfold well_formed, fill_columns. simpl. rewrite !Forall_forall.
  intros H r' Hr'. apply in_map_iff in Hr' as [r [<- Hr]].
  change (fun (r' : row) (jv : nat * cell) => let '(j0, v) := jv in
            update_nth j0 (fillna_cell v) r') with fill_step.
  rewrite fold_fill_length. apply H. exact Hr.
Qed.

Lemma cell_at_fill_columns (fills : list (nat * cell)) (df : table) i j x :
  cell_at i j df = Some x -> cell_at i j (fill_columns fills df) = Some x.
Proof.
  intros H. unfold cell_at, fill_columns in *. cbn [rows]. rewrite nth_error_map.
  unfold row, cell in *.
  destruct (nth_error _ i) as [r|]; [|discriminate]. cbn.
  apply (fold_fill_present fills r j x H).
Qed.

(** FillMissingNumericMean never overwrites a present cell, never adds a
    missing one (the "Total Missing Values" count cannot grow), keeps the
    columns and keeps the table rectangular. *)
Theorem fill_missing_mean_only_fills (df : table) :
  columns (fill_missing_mean df) = columns df /\
  (forall i j x, cell_at i j df = Some x -> cell_at i j (fill_missing_mean df) = Some x) /\
  total_missing (fill_missing_mean df) <= total_missing df /\
  (well_formed df -> well_formed (fill_missing_mean df)).
Proof.
  split; [reflexivity|]. split; [|split].
  - intros i j x. apply cell_at_fill_columns.
  - unfold total_missing, fill_missing_mean, fill_columns. simpl.
    induction (rows df) as [|r rs IH]; simpl; [lia|].
    apply Nat.add_le_mono; [apply fold_fill_missing_le | exact IH].
  - apply fill_columns_well_formed.
Qed.

Lemma fillna_cell_none (c : cell) : fillna_cell None c = c.
Proof. destruct c; reflexivity. Qed.

Lemma fillna_cell_after_some (w : cell) (v : val) (c : cell) :
  fillna_cell w (fillna_cell (Some v) c) = fillna_cell (Some v) c.
Proof. destruct c; reflexivity. Qed.

Lemma fill_columns_twice (js : list nat) (g1 g2 : nat -> cell) (df : table) :
  NoDup js -> (forall k, In k js -> g1 k = None -> g2 k = None) ->
  fill_columns (map (fun j => (j, g2 j)) js)
               (fill_columns (map (fun j => (j, g1 j)) js) df)
  = fill_columns (map (fun j => (j, g1 j)) js) df.
Proof.
  intros Hnd Hg. unfold fill_columns at 1 2 3. cbn [columns rows]. f_equal.
  rewrite map_map. apply map_ext. intros r.
  change (fun (r' : list cell) (jv : nat * cell) => let '(j0, v) := jv in
            update_nth j0 (fillna_cell v) r') with fill_step.
  apply nth_ext with (d := None) (d' := None); [apply fold_fill_length|].
  intros k Hk. rewrite !fold_fill_length in Hk.
  rewrite (nth_fold_fill g2) by exact Hnd. rewrite fold_fill_length.
  rewrite (nth_fold_fill g1) by exact Hnd.
  assert (Hlt : (k <? List.length r) = true) by (apply Nat.ltb_lt; exact Hk).
  rewrite Hlt, !andb_true_r.
  destruct (existsb (Nat.eqb k) js) eqn:Ek; [|reflexivity].
  apply existsb_eqb_In in Ek.
  destruct (g1 k) as [v|] eqn:Eg1.
  - apply fillna_cell_after_some.
  - rewrite (Hg k Ek Eg1). apply fillna_cell_none.
Qed.

(** Pressing Fill Missing Values a second time changes nothing: a numeric
    column either has no missing cell left, or had a NaN mean and is
    unchanged, so its mean is still NaN. *)
Theorem fill_missing_mean_idempotent (df : table) :
  well_formed df ->
  fill_missing_mean (fill_missing_mean df) = fill_missing_mean df.
Proof.
  intros Hwf.
  assert (Hg : forall k, In k (select_dtypes DNumber df) ->
            mean (column_cells k df) = None ->
            mean (column_cells k (fill_missing_mean df)) = None).
  { intros k Hk Hn. rewrite column_fill_missing_mean by exact Hwf.
    apply existsb_eqb_In in Hk. rewrite Hk, Hn.
    rewrite (map_ext (fillna_cell None) (fun c => c) fillna_cell_none), map_id.
    exact Hn. }
  change (fill_missing_mean (fill_missing_mean df)) with
    (fill_columns (map (fun j => (j, mean (column_cells j (fill_missing_mean df))))
                       (select_dtypes DNumber df))
       (fill_columns (map (fun j => (j, mean (column_cells j df)))
                          (select_dtypes DNumber df)) df)).
  apply fill_columns_twice; [apply positions_of_NoDup | exact Hg].
Qed.

(** ** ImputeMixed *)

Lemma statistics_fst (st : strategy) (df : table) :
  forall cols stats, statistics st df cols = Ok stats -> map fst stats = cols.
Proof.
  induction cols as [|j cols IH]; intros stats H; simpl in H.
  - injection H as <-. reflexivity.
  - destruct (statistic st (column_cells j df)) as [s|e]; simpl in H; [|discriminate].
    destruct (statistics st df cols) as [rest|e] eqn:E; simpl in H; [|discriminate].
    injection H as <-. simpl. f_equal. apply IH. reflexivity.
Qed.

Lemma impute_assign_ok (st : strategy) (cols : list nat) (df df' : table) :
  impute_assign st cols df = Ok df' ->
  cols <> [] /\ rows df <> [] /\
  exists stats, df' = fill_columns stats df /\ map fst stats = cols /\
    Forall (fun p => snd p <> None) stats.
Proof.
  unfold impute_assign. intros H.
  destruct cols as [|j cols']; [discriminate|].
  destruct (rows df) as [|r rs] eqn:Erows; [discriminate|].
  split; [discriminate|]. split; [discriminate|].
  destruct (statistics st df (j :: cols')) as [stats|e] eqn:Es; simpl in H; [|discriminate].
  destruct (existsb _ stats) eqn:Eex; [discriminate|].
  injection H as <-. exists stats. split; [reflexivity|]. split.
  - eapply statistics_fst. exact Es.
  - apply Forall_forall. intros [k s] Hin Hnone. simpl in Hnone. subst s.
    assert (Hx : existsb (fun '(_, s) => match s with None => true | Some _ => false end)
                         stats = true) by (apply existsb_exists; exists (k, None); auto).
    congruence.
Qed.

(** Whatever the table, ImputeMixed raises when the table has no row, no
    numeric column or no object (text) column. *)
Theorem impute_mixed_raises_on_missing_kind (df : table) :
  rows df = [] \/ select_dtypes DNumber df = [] \/ select_dtypes DObject df = [] ->
  exists e, impute_mixed df = Raise e.
Proof.
  intros Hcase. unfold impute_mixed.
  destruct (impute_assign Mean (select_dtypes DNumber df) df) as [df1|e] eqn:E1;
    simpl; [|eauto].
  apply impute_assign_ok in E1 as [Hnum [Hrows [stats [-> _]]]].
  assert (Hobj : select_dtypes DObject (fill_columns stats df) = []).
  { destruct Hcase as [H|[H|H]]; [contradiction|contradiction|exact H]. }
  rewrite Hobj. eexists. reflexivity.
Qed.

Lemma fold_fill_fills :
  forall fills (r : row) k v, In (k, Some v) fills -> k < List.length r ->
  nth k (fold_left fill_step fills r) None <> None.
Proof.
  induction fills as [|[j w] fills IH]; intros r k v Hin Hk; [destruct Hin|].
  simpl. destruct Hin as [Heq|Hin].
  - injection Heq as -> ->.
    assert (Hc : nth k (update_nth k (fillna_cell (Some v)) r) None
                 = fillna_cell (Some v) (nth k r None)).
    { rewrite nth_update_nth, Nat.eqb_refl.
      replace (k <? List.length r) with true by (symmetry; apply Nat.ltb_lt; exact Hk).
      reflexivity. }
    destruct (fillna_cell (Some v) (nth k r None)) as [x|] eqn:Ex;
      [|destruct (nth k r None); discriminate].
    rewrite (fold_fill_present fills _ k x) by (exact Hc). discriminate.
  - apply (IH _ k v Hin). rewrite update_nth_length. exact Hk.
Qed.

Lemma stats_cover (stats : list (nat * option val)) (cols : list nat) j :
  map fst stats = cols -> Forall (fun p => snd p <> None) stats -> In j cols ->
  exists v, In (j, Some v) stats.
Proof.
  intros <- Hall Hj. apply in_map_iff in Hj as [[k s] [Hk Hin]]. simpl in Hk. subst k.
  rewrite Forall_forall in Hall. specialize (Hall _ Hin). simpl in Hall.
  destruct s as [v|]; [eauto | contradiction].
Qed.

(** When ImputeMixed succeeds it keeps the columns and the shape of the
    table, and leaves no missing cell in any numeric or object column. *)
Theorem impute_mixed_fills_numeric_and_object (df df' : table) :
  well_formed df -> impute_mixed df = Ok df' ->
  columns df' = columns df /\ well_formed df' /\
  forall j, In j (select_dtypes DNumber df) \/ In j (select_dtypes DObject df) ->
  ~ In None (column_cells j df').
Proof.
  intros Hwf H. unfold impute_mixed in H.
  destruct (impute_assign Mean (select_dtypes DNumber df) df) as [df1|e] eqn:E1;
    simpl in H; [|discriminate].
  apply impute_assign_ok in E1 as [_ [_ [stats1 [-> [Hf1 Hs1]]]]].
  apply impute_assign_ok in H as [_ [_ [stats2 [-> [Hf2 Hs2]]]]].
  split; [reflexivity|]. split; [apply fill_columns_well_formed, fill_columns_well_formed, Hwf|].
  intros j Hj Hin. unfold column_cells, fill_columns in Hin. cbn [rows] in Hin.
  rewrite map_map, map_map in Hin.
  apply in_map_iff in Hin as [r [Hr Hr0]].
  unfold well_formed in Hwf. rewrite Forall_forall in Hwf.
  change (fun (r' : list cell) (jv : nat * cell) => let '(j0, v) := jv in
            update_nth j0 (fillna_cell v) r') with fill_step in Hr.
  assert (Hlen : j < List.length r).
  { rewrite (Hwf r Hr0).
    destruct Hj as [Hj|Hj]; apply positions_of_bound in Hj; lia. }
  destruct Hj as [Hj|Hj].
  - destruct (stats_cover stats1 _ j Hf1 Hs1 Hj) as [v Hv].
    pose proof (fold_fill_fills stats1 r j v Hv Hlen) as Hsome.
    destruct (nth j (fold_left fill_step stats1 r) None) as [x|] eqn:Ex; [|contradiction].
    assert (Hbad : Some x = None) by (rewrite <- (fold_fill_present stats2 _ j x Ex); exact Hr).
    discriminate.
  - destruct (stats_cover stats2 _ j Hf2 Hs2 Hj) as [v Hv].
    apply (fold_fill_fills stats2 (fold_left fill_step stats1 r) j v Hv);
      [rewrite fold_fill_length; exact Hlen | exact Hr].
Qed.

Lemma statistics_mean_inf (df : table) (neg : bool) :
  forall cols j, In j cols -> In (Some (VInf neg)) (column_cells j df) ->
  statistics Mean df cols = Raise inf_error.
Proof.
  induction cols as [|k cols IH]; intros j Hj Hinf; [destruct Hj|].
  simpl statistics. unfold statistic.
  destruct (has_inf false (column_cells k df) || has_inf true (column_cells k df))
    eqn:Ek; [reflexivity|].
  destruct Hj as [->|Hj].
  - exfalso. apply orb_false_iff in Ek as [Ef Et].
    assert (Hh : has_inf neg (column_cells j df) = true).
    { apply existsb_exists. exists (Some (VInf neg)). split; [exact Hinf|].
      apply Bool.eqb_reflx. }
    destruct neg; congruence.
  - simpl. rewrite (IH j Hj Hinf). reflexivity.
Qed.

(** AI Clean on a table with rows and a numeric column holding [inf] or
    [-inf] raises scikit-learn's "Input X contains infinity" [ValueError]:
    the mean imputer refuses infinite input. *)
Theorem impute_mixed_raises_on_infinity (df : table) (j : nat) (neg : bool) :
  rows df <> [] -> In j (select_dtypes DNumber df) ->
  In (Some (VInf neg)) (column_cells j df) ->
  impute_mixed df = Raise inf_error.
Proof.
  intros Hr Hj Hinf.
  pose proof (statistics_mean_inf df neg _ j Hj Hinf) as Hs.
  unfold impute_mixed, impute_assign.
  destruct (select_dtypes DNumber df) as [|k cols]; [destruct Hj|].
  destruct (rows df) as [|r rs]; [contradiction|].
  rewrite Hs. reflexivity.
Qed.

(** ** Column selection and the chart's columns *)

Lemma index_of_none :
  forall cs n k, index_of n k cs = None <-> ~ In n (map fst cs).
Proof.
  induction cs as [|[m d] cs IH]; intros n k; simpl; [tauto|].
  destruct (String.eqb m n) eqn:E.
  - apply String.eqb_eq in E. subst. split; [discriminate | tauto].
  - apply String.eqb_neq in E. rewrite IH. tauto.
Qed.

Lemma index_of_some :
  forall cs n k i, index_of n k cs = Some i ->
  k <= i /\ fst (nth (i - k) cs (EmptyString, DOther)) = n.
Proof.
  induction cs as [|[m d] cs IH]; intros n k i H; simpl in H; [discriminate|].
  destruct (String.eqb m n) eqn:E.
  - injection H as <-. apply String.eqb_eq in E. rewrite Nat.sub_diag. auto.
  - apply IH in H as [Hle Hn]. split; [lia|].
    replace (i - k) with (S (i - S k)) by lia. exact Hn.
Qed.

(** [df[columns]] raises [KeyError] exactly when a selected label is not a
    column of the table. *)
Theorem project_key_error (sel : list string) (df : table) :
  project sel df = None <-> exists n, In n sel /\ ~ In n (column_names df).
Proof.
  unfold project, column_names.
  destruct (existsb _ _) eqn:E; split; try discriminate; intros H.
  - apply existsb_exists in E as [o [Ho Hnone]].
    apply in_map_iff in Ho as [n [Hon Hn]]. subst o.
    destruct (index_of n 0 (columns df)) eqn:Ei; [discriminate|].
    exists n. split; [exact Hn|]. apply (index_of_none _ _ 0). exact Ei.
  - reflexivity.
  - exfalso. destruct H as [n [Hn Hnot]].
    apply (index_of_none _ _ 0) in Hnot.
    assert (Hex : existsb (fun o => match o with None => true | Some _ => false end)
                    (map (fun n0 => index_of n0 0 (columns df)) sel) = true).
    { apply existsb_exists. exists None. split; [|reflexivity].
      apply in_map_iff. exists n. auto. }
    congruence.
Qed.

(** A successful selection has exactly the selected labels, in the selected
    order, keeps the number of rows, and is rectangular. *)
Theorem project_shape (sel : list string) (df df' : table) :
  project sel df = Some df' ->
  column_names df' = sel /\ List.length (rows df') = List.length (rows df) /\
  well_formed df'.
Proof.
  unfold project, column_names. destruct (existsb _ _) eqn:E; [discriminate|].
  intros H. injection H as <-. cbn [columns rows]. split; [|split].
  - rewrite !map_map. rewrite <- (map_id sel) at 2. apply map_ext_in.
    intros n Hn. destruct (index_of n 0 (columns df)) as [i|] eqn:Ei.
    + apply index_of_some in Ei as [_ Hi]. rewrite Nat.sub_0_r in Hi. exact Hi.
    + exfalso. assert (Hex : existsb (fun o => match o with None => true | Some _ => false end)
                    (map (fun n0 => index_of n0 0 (columns df)) sel) = true).
      { apply existsb_exists. exists None. split; [|reflexivity].
        apply in_map_iff. exists n. auto. }
      congruence.
  - apply length_map.
  - unfold well_formed. cbn [columns rows]. apply Forall_forall. intros r Hr.
    apply in_map_iff in Hr as [r0 [<- _]]. rewrite !length_map. reflexivity.
Qed.

Lemma positions_of_dtype :
  forall d cs i j, In j (positions_of d i cs) ->
  snd (nth (j - i) cs (EmptyString, DOther)) = d.
Proof.
  induction cs as [|[n d'] cs IH]; intros i j Hin; simpl in *; [contradiction|].
  assert (Hrest : In j (positions_of d (S i) cs) ->
                  snd (nth (j - i) ((n, d') :: cs) (EmptyString, DOther)) = d).
  { intros H. pose proof (positions_of_bound _ _ _ _ H) as [Hle _].
    replace (j - i) with (S (j - S i)) by lia. apply IH. exact H. }
  destruct d, d'; simpl in Hin; try (apply Hrest; exact Hin);
    (destruct Hin as [<-|Hin]; [rewrite Nat.sub_diag; reflexivity | apply Hrest; exact Hin]).
Qed.

(** The chart shows the first two numeric columns (fewer when the table
    has fewer), never a non-numeric one, over all the rows. *)
Theorem bar_chart_data_numeric (df : table) :
  columns (bar_chart_data df)
    = map (fun j => nth j (columns df) (EmptyString, DOther))
          (firstn 2 (select_dtypes DNumber df)) /\
  Forall (fun c => snd c = DNumber) (columns (bar_chart_data df)) /\
  List.length (columns (bar_chart_data df))
    = Nat.min 2 (List.length (select_dtypes DNumber df)) /\
  List.length (rows (bar_chart_data df)) = List.length (rows df) /\
  well_formed (bar_chart_data df).
Proof.
  unfold bar_chart_data, take_columns. cbn [columns rows].
  split; [reflexivity|]. split; [|split; [|split]].
  - apply Forall_forall. intros c Hc. apply in_map_iff in Hc as [j [<- Hj]].
    assert (Hj' : In j (select_dtypes DNumber df))
      by (rewrite <- (firstn_skipn 2 (select_dtypes DNumber df)); apply in_or_app; left; exact Hj).
    clear Hj. rename Hj' into Hj. unfold select_dtypes in Hj.
    pose proof (positions_of_dtype _ _ _ _ Hj) as Hd. rewrite Nat.sub_0_r in Hd. exact Hd.
  - rewrite length_map, length_firstn. reflexivity.
  - apply length_map.
  - unfold well_formed. cbn [columns rows]. apply Forall_forall. intros r Hr.
    apply in_map_iff in Hr as [r0 [<- _]]. rewrite !length_map. reflexivity.
Qed.

(** ** File names *)

Lemma rfind_from_spec (c : ascii) :
  forall l i acc d, rfind_from c i l acc = Some d ->
  (acc = Some d /\ ~ In c l) \/
  (i <= d /\ nth_error l (d - i) = Some c /\ ~ In c (skipn (S (d - i)) l)).
Proof.
  induction l as [|x l IH]; intros i acc d H; simpl in H; [left; auto|].
  apply IH in H as [[Hacc Hno]|[Hle [Hnth Hno]]].
  - destruct (Ascii.eqb x c) eqn:E.
    + injection Hacc as <-. apply Ascii.eqb_eq in E. subst x.
      right. rewrite Nat.sub_diag. simpl. auto.
    + left. split; [exact Hacc|]. apply Ascii.eqb_neq in E.
      intros [H|H]; [congruence | contradiction].
  - right. replace (d - i) with (S (d - S i)) by lia. simpl. repeat split; [lia | |]; assumption.
Qed.

Lemma rfind_from_some_acc (c : ascii) :
  forall l i a, rfind_from c i l (Some a) <> None.
Proof.
  induction l as [|x l IH]; intros i a; simpl; [discriminate|].
  destruct (Ascii.eqb x c); apply IH.
Qed.

Lemma rfind_none (c : ascii) (l : list ascii) : rfind c l = None -> ~ In c l.
Proof.
  unfold rfind. generalize 0 as i. revert l.
  induction l as [|x l IH]; intros i H; simpl in *; [tauto|].
  destruct (Ascii.eqb x c) eqn:E.
  - exfalso. exact (rfind_from_some_acc c l (S i) i H).
  - apply IH in H. apply Ascii.eqb_neq in E. intros [Hx|Hx]; [congruence | contradiction].
Qed.

Lemma skipn_nth_error {X} :
  forall (l : list X) d x, nth_error l d = Some x -> skipn d l = x :: skipn (S d) l.
Proof.
  induction l as [|y l IH]; intros [|d] x H; simpl in *; try discriminate.
  - injection H as ->. reflexivity.
  - apply IH. exact H.
Qed.

Lemma skipn_In_le {X} :
  forall (l : list X) k d x, k <= d -> In x (skipn d l) -> In x (skipn k l).
Proof.
  induction l as [|y l IH]; intros k d x Hle H.
  - rewrite skipn_nil in H. destruct H.
  - destruct d as [|d]; [replace k with 0 by lia; exact H|].
    destruct k as [|k]; simpl in *.
    + right. apply (IH 0 d); [lia | exact H].
    + apply (IH k d); [lia | exact H].
Qed.

(** [os.path.splitext(name)[-1]] is either empty or a suffix of the name
    that starts with its only dot and contains no ['/']. *)
Theorem splitext_ext_suffix (p : string) :
  splitext_ext p = EmptyString \/
  exists pre rest,
    list_ascii_of_string p = pre ++ "."%char :: rest /\
    list_ascii_of_string (splitext_ext p) = "."%char :: rest /\
    ~ In "."%char rest /\ ~ In "/"%char rest.
Proof.
  unfold splitext_ext. set (l := list_ascii_of_string p).
  destruct (rfind "."%char l) as [d|] eqn:Ed; [|left; reflexivity].
  destruct (rfind "/"%char l) as [k|] eqn:Ek;
    [destruct (S k <=? d) eqn:Ele | destruct (0 <=? d) eqn:Ele];
    try (left; reflexivity);
    (destruct (existsb _ _); [|left; reflexivity]); right;
    (apply rfind_from_spec in Ed as [[Habs _]|[_ [Hnth Hdot]]]; [discriminate|]);
    rewrite Nat.sub_0_r in Hnth, Hdot;
    exists (firstn d l), (skipn (S d) l);
    (rewrite list_ascii_of_string_of_list_ascii, (skipn_nth_error l d _ Hnth));
    (split; [rewrite <- (skipn_nth_error l d _ Hnth); symmetry; apply firstn_skipn|]);
    (split; [reflexivity|]); (split; [exact Hdot|]).
  - apply rfind_from_spec in Ek as [[Habs _]|[_ [_ Hsl]]]; [discriminate|].
    rewrite Nat.sub_0_r in Hsl. apply Nat.leb_le in Ele.
    intros H. apply Hsl. apply (skipn_In_le l _ (S d)); [lia | exact H].
  - apply rfind_none in Ek. intros H. apply Ek.
    rewrite <- (firstn_skipn (S d) l). apply in_or_app. right. exact H.
Qed.

Lemma replace_nonempty_absent (old new : string) :
  forall fuel s, String.index 0 old s = None -> replace_nonempty fuel old new s = s.
Proof.
  induction fuel as [|f IH]; intros s H; [reflexivity|].
  destruct s as [|c s']; [reflexivity|]. cbn [replace_nonempty].
  change (String.index 0 old (String c s')) with
    (if String.prefix old (String c s') then Some 0
     else match String.index 0 old s' with Some n => Some (S n) | None => None end) in H.
  destruct (String.prefix old (String c s')); [discriminate|].
  f_equal. apply IH. destruct (String.index 0 old s'); [discriminate | reflexivity].
Qed.

(** [s.replace(old, new)] with a non-empty [old] that does not occur in
    [s] returns [s]. *)
Lemma py_replace_absent (old new s : string) :
  old <> EmptyString -> String.index 0 old s = None -> py_replace old new s = s.
Proof.
  intros Hne H. unfold py_replace. destruct old; [contradiction|].
  apply replace_nonempty_absent. exact H.
Qed.

(** When the lower-cased extension does not occur in the uploaded file's
    name (an upper-case extension such as ["Sales.CSV"]), the converted
    file is offered under the original name, in either format. *)
Theorem conversion_keeps_name_without_lowercase_ext
    (to_csv_bytes to_excel_bytes : table -> result (list byte))
    (df : table) (fname conversion_type : string)
    (buf : bytesio) (file_name mime : string) :
  lower (splitext_ext fname) <> EmptyString ->
  String.index 0 (lower (splitext_ext fname)) fname = None ->
  conversion_branch to_csv_bytes to_excel_bytes df fname
    (lower (splitext_ext fname)) conversion_type = Ok (buf, file_name, mime) ->
  mime <> EmptyString -> file_name = fname.
Proof.
  intros Hne Hidx H Hmime. unfold conversion_branch in H.
  destruct (String.eqb conversion_type "CSV").
  - destruct (to_csv_bytes df); simpl in H; [|discriminate].
    injection H as _ <- _. apply py_replace_absent; assumption.
  - destruct (String.eqb conversion_type "EXCEL").
    + destruct (to_excel_bytes df); simpl in H; [|discriminate].
      injection H as _ <- _. apply py_replace_absent; assumption.
    + injection H as _ _ <-. contradiction.
Qed.

(** ** CSV ingestion *)

Lemma utf8_decode_ascii :
  forall bs : list byte, Forall (fun b => (0 <= b < 128)%Z) bs -> utf8_decode bs = Some bs.
Proof.
  induction bs as [|b bs IH]; intros H; [reflexivity|].
  inversion H as [|? ? Hb Hbs]; subst. simpl.
  replace (b <? 0x80)%Z with true by (symmetry; apply Z.ltb_lt; lia).
  rewrite (IH Hbs). reflexivity.
Qed.

(** A non-empty ASCII upload read from its start is parsed once, by the
    UTF-8 read, on all of its bytes: the Latin-1 fallback is not taken
    (the tokenizer, working on decoded text, raises no decoding error). *)
Theorem ingest_csv_ascii (A : Type) (parse : list Z -> result A) (s : stream) :
  (forall text, parse text <> Raise UnicodeDecodeError) ->
  pos s = 0 -> content s <> [] ->
  Forall (fun b => (0 <= b < 128)%Z) (content s) ->
  fst (ingest_csv A parse s) = parse (content s).
Proof.
  intros Hparse Hpos Hne Hascii. unfold ingest_csv, read_csv at 1. rewrite Hpos. simpl skipn.
  rewrite (utf8_decode_ascii _ Hascii).
  destruct (content s) as [|b bs]; [contradiction|].
  specialize (Hparse (b :: bs)).
  destruct (parse (b :: bs)) as [a|[m|m| |]]; try reflexivity. contradiction.
Qed.

(** For an upload whose unread part fits in one read block, whenever the
    UTF-8 read fails to decode, the Latin-1 retry starts where the UTF-8
    read left the stream (its end) and raises [EmptyDataError]: the
    fallback never produces a table. *)
Theorem ingest_csv_fallback_empty_small_upload (A : Type) (parse : list Z -> result A)
    (s : stream) :
  List.length (skipn (pos s) (content s)) <= min_read_block ->
  utf8_decode (skipn (pos s) (content s)) = None ->
  fst (ingest_csv A parse s) = Raise EmptyDataError.
Proof.
  intros _ H. unfold ingest_csv, read_csv at 1. rewrite H. cbn.
  unfold read_csv. cbn [content pos]. rewrite skipn_all. reflexivity.
Qed.

(** * Witnesses of the further properties *)

Lemma fill_missing_mean_idempotent_witness :
  well_formed example_table /\
  fill_missing_mean (fill_missing_mean example_table) = fill_missing_mean example_table.
Proof.
  assert (Hwf : well_formed example_table) by (repeat constructor).
  split; [exact Hwf|].
  exact (fill_missing_mean_idempotent example_table Hwf).
Defined.

Lemma impute_mixed_raises_on_missing_kind_witness :
  select_dtypes DObject example_table = [] /\
  exists e, impute_mixed example_table = Raise e.
Proof.
  assert (Ho : select_dtypes DObject example_table = []) by reflexivity.
  split; [exact Ho|].
  apply impute_mixed_raises_on_missing_kind. right. right. exact Ho.
Defined.

(** A numeric and a text column, each with a gap. *)
Definition mixed_table : table :=
  mkTable [("a"%string, DNumber); ("s"%string, DObject)]
          [[num 1; Some (VStr "x")]; [None; None]].

Definition mixed_imputed : table :=
  match impute_mixed mixed_table with Ok d => d | Raise _ => mixed_table end.

Lemma impute_mixed_fills_numeric_and_object_witness :
  well_formed mixed_table /\ impute_mixed mixed_table = Ok mixed_imputed /\
  columns mixed_imputed = columns mixed_table /\ well_formed mixed_imputed /\
  forall j, In j (select_dtypes DNumber mixed_table) \/
            In j (select_dtypes DObject mixed_table) ->
  ~ In None (column_cells j mixed_imputed).
Proof.
  assert (Hwf : well_formed mixed_table) by (repeat constructor).
  assert (Heq : impute_mixed mixed_table = Ok mixed_imputed) by (vm_compute; reflexivity).
  split; [exact Hwf|]. split; [exact Heq|].
  exact (impute_mixed_fills_numeric_and_object mixed_table mixed_imputed Hwf Heq).
Defined.

Lemma project_shape_witness :
  project ["b"%string] example_table
    = Some (mkTable [("b"%string, DNumber)] [[num 2]; [None]]) /\
  column_names (mkTable [("b"%string, DNumber)] [[num 2]; [None]]) = ["b"%string] /\
  List.length (rows (mkTable [("b"%string, DNumber)] [[num 2]; [None]]))
    = List.length (rows example_table) /\
  well_formed (mkTable [("b"%string, DNumber)] [[num 2]; [None]]).
Proof.
  assert (Hp : project ["b"%string] example_table
               = Some (mkTable [("b"%string, DNumber)] [[num 2]; [None]]))
    by reflexivity.
  split; [exact Hp|].
  exact (project_shape ["b"%string] example_table _ Hp).
Defined.

Lemma conversion_keeps_name_without_lowercase_ext_witness :
  lower (splitext_ext "Sales.CSV") <> EmptyString /\
  String.index 0 (lower (splitext_ext "Sales.CSV")) "Sales.CSV" = None /\
  conversion_branch csv_serializer (fun _ => Ok []) example_table "Sales.CSV"
    (lower (splitext_ext "Sales.CSV")) "CSV"
    = Ok (mkBytesIO [0x61; 0x2C; 0x62; 0x0A]%Z 4, "Sales.CSV"%string, "text/csv"%string) /\
  "Sales.CSV"%string = "Sales.CSV"%string.
Proof.
  assert (He : lower (splitext_ext "Sales.CSV") <> EmptyString)
    by (vm_compute; discriminate).
  assert (Hi : String.index 0 (lower (splitext_ext "Sales.CSV")) "Sales.CSV" = None)
    by (vm_compute; reflexivity).
  assert (Hb : conversion_branch csv_serializer (fun _ => Ok []) example_table "Sales.CSV"
                 (lower (splitext_ext "Sales.CSV")) "CSV"
               = Ok (mkBytesIO [0x61; 0x2C; 0x62; 0x0A]%Z 4, "Sales.CSV"%string,
                     "text/csv"%string))
    by (vm_compute; reflexivity).
  split; [exact He|]. split; [exact Hi|]. split; [exact Hb|].
  exact (conversion_keeps_name_without_lowercase_ext csv_serializer (fun _ => Ok [])
           example_table "Sales.CSV" "CSV" _ "Sales.CSV" "text/csv" He Hi Hb
           ltac:(discriminate)).
Defined.

(** A line count as the tokenizer. *)
Definition count_parse (text : list Z) : result nat := Ok (List.length text).

Lemma ingest_csv_ascii_witness :
  fst (ingest_csv nat count_parse (mkStream [0x61; 0x0A]%Z 0)) = count_parse [0x61; 0x0A]%Z.
Proof.
  apply (ingest_csv_ascii nat count_parse (mkStream [0x61; 0x0A]%Z 0)).
  - intros text H. discriminate H.
  - reflexivity.
  - discriminate.
  - repeat constructor; vm_compute; discriminate.
Defined.

Lemma ingest_csv_fallback_empty_small_upload_witness :
  List.length (skipn 0 [0x63; 0x61; 0x66; 0xE9; 0x0A]%Z) <= min_read_block /\
  utf8_decode [0x63; 0x61; 0x66; 0xE9; 0x0A]%Z = None /\
  fst (ingest_csv nat count_parse (mkStream [0x63; 0x61; 0x66; 0xE9; 0x0A]%Z 0))
    = Raise EmptyDataError.
Proof.
  assert (Hd : utf8_decode [0x63; 0x61; 0x66; 0xE9; 0x0A]%Z = None) by reflexivity.
  assert (Hl : List.length (skipn 0 [0x63; 0x61; 0x66; 0xE9; 0x0A]%Z) <= min_read_block)
    by (vm_compute; lia).
  split; [exact Hl|]. split; [exact Hd|].
  exact (ingest_csv_fallback_empty_small_upload nat count_parse
           (mkStream [0x63; 0x61; 0x66; 0xE9; 0x0A]%Z 0) Hl Hd).
Defined.

Lemma impute_mixed_raises_on_infinity_witness :
  rows inf_table <> [] /\ In 0 (select_dtypes DNumber inf_table) /\
  In (Some (VInf false)) (column_cells 0 inf_table) /\
  impute_mixed inf_table = Raise inf_error.
Proof.
  assert (Hr : rows inf_table <> []) by discriminate.
  assert (Hj : In 0 (select_dtypes DNumber inf_table)) by (left; reflexivity).
  assert (Hi : In (Some (VInf false)) (column_cells 0 inf_table)) by (left; reflexivity).
  split; [exact Hr|]. split; [exact Hj|]. split; [exact Hi|].
  exact (impute_mixed_raises_on_infinity inf_table 0 false Hr Hj Hi).
Defined.
